(** * lld-standalone: the standalone driver in front of [ld.lld]

    A shallow embedding of [lld-standalone.cpp] and the properties of its
    argument rewriting, target resolution and exit status.

    The driver is a thin layer over LLVM: what it asks of the library
    (path handling, the target registry, the [Triple] constructor, the
    host's default triple, the [PATH] lookup and the subprocess call) is
    gathered in the class [Platform]; the driver's own functions are
    written over any instance of it. *)

From Stdlib Require Import String Ascii List ZArith Bool Lia.
Import ListNotations.

Local Open Scope string_scope.
Local Open Scope list_scope.

(** ** Text helpers: [std::string] operations used by the driver *)

(** The line terminator the driver streams as the C escape for a newline. *)
Definition nl : string := String (ascii_of_nat 10) EmptyString.

(** Whether character [ch] occurs in [s]. *)
Fixpoint has_char (ch : ascii) (s : string) : bool :=
  match s with
  | EmptyString => false
  | String a s' => Ascii.eqb a ch || has_char ch s'
  end.

(** [std::string::rfind(ch)]: the position of the last occurrence of [ch],
    [None] standing for [std::string::npos]. *)
Fixpoint rfind (ch : ascii) (s : string) : option nat :=
  match s with
  | EmptyString => None
  | String a s' =>
      match rfind ch s' with
      | Some i => Some (S i)
      | None => if Ascii.eqb a ch then Some 0 else None
      end
  end.

(** [std::string::substr(pos, n)]. *)
Definition substr (s : string) (pos n : nat) : string := substring pos n s.

(** [std::vector::push_back]. *)
Definition push_back {A : Type} (v : list A) (x : A) : list A := v ++ [x].

(** ** [llvm::Triple]: the fields the driver reads *)

Module Triple.

Inductive ArchType : Set :=
| UnknownArch
| arm | armeb | aarch64 | aarch64_be | aarch64_32 | arc | avr
| bpfel | bpfeb | hexagon | mips | mipsel | mips64 | mips64el | msp430
| ppc | ppc64 | ppc64le | r600 | amdgcn | riscv32 | riscv64
| sparc | sparcv9 | sparcel | systemz | tce | tcele
| thumb | thumbeb | x86 | x86_64 | xcore | nvptx | nvptx64
| le32 | le64 | amdil | amdil64 | hsail | hsail64 | spir | spir64
| kalimba | shave | lanai | wasm32 | wasm64
| renderscript32 | renderscript64.

Inductive OSType : Set :=
| UnknownOS
| Ananas | CloudABI | Darwin | DragonFly | FreeBSD | Fuchsia | IOS
| KFreeBSD | Linux | Lv2 | MacOSX | NetBSD | OpenBSD | Solaris | Win32
| Haiku | Minix | RTEMS | NaCl | CNK | AIX | CUDA | NVCL | AMDHSA | PS4
| ELFIAMCU | TvOS | WatchOS | Mesa3D | Contiki | AMDPAL | HermitCore
| Hurd | WASI | Emscripten.

Inductive EnvironmentType : Set :=
| UnknownEnvironment
| GNU | GNUABIN32 | GNUABI64 | GNUEABI | GNUEABIHF | GNUX32 | CODE16
| EABI | EABIHF | ELFv1 | ELFv2 | Android | Musl | MuslEABI | MuslEABIHF
| MSVC | Itanium | Cygnus | CoreCLR | Simulator | MacABI.

(** A parsed triple.  [str] is the text it was built from; the vendor,
    sub-architecture and object format are never read by the driver and
    are left out. *)
Record T : Set := mk {
  str : string;
  getArch : ArchType;
  getOS : OSType;
  getEnvironment : EnvironmentType
}.

Definition isOSNetBSD (t : T) : bool :=
  match getOS t with
  | NetBSD => true
  | _ => false
  end.

Definition ArchType_eq_dec (a b : ArchType) : {a = b} + {a <> b}.
Proof. decide equality. Defined.

Definition OSType_eq_dec (a b : OSType) : {a = b} + {a <> b}.
Proof. decide equality. Defined.

End Triple.

(** ** The library layer *)

(** [llvm::ErrorOr<T>], with the error's [message()]. *)
Inductive ErrorOr (A : Type) : Type :=
| Ok (value : A)
| Err (message : string).
Arguments Ok {A} value.
Arguments Err {A} message.

Class Platform : Type := {
  (** [llvm::sys::path::stem] *)
  stem : string -> string;
  (** [llvm::TargetRegistry::lookupTarget(name, error)] is not null *)
  lookupTarget : string -> bool;
  (** the constructor [llvm::Triple(name)] *)
  Triple_ctor : string -> Triple.T;
  (** [llvm::sys::getDefaultTargetTriple()] *)
  getDefaultTargetTriple : string;
  (** [llvm::sys::findProgramByName] *)
  findProgramByName : string -> ErrorOr string;
  (** [llvm::sys::ExecuteAndWait(Program, Argv, ...)]: the result code and
      the text left in [ErrMsg] *)
  ExecuteAndWait : string -> list string -> Z * string
}.

Definition LD_LLD_PROGNAME : string := "ld.lld".

(** ** Target resolution *)

Section Driver.

Context {P : Platform}.

(** [setTargetTriple]: the value stored in the global [targetTriple]. *)
Definition setTargetTriple (argv0 : string) : Triple.T :=
  let ProgName := stem argv0 in
  match rfind "-" ProgName with
  | Some lastComponent =>
      let prefix := substr ProgName 0 lastComponent in
      if lookupTarget prefix then Triple_ctor prefix
      else Triple_ctor getDefaultTargetTriple
  | None => Triple_ctor getDefaultTargetTriple
  end.

(** ** Target customization *)

Definition prependNetBSDCustomization (targetTriple : Triple.T)
    (args : list string) : list string :=
  let args := push_back args "--no-rosegment" in
  let args := push_back args "--disable-new-dtags" in
  let args := push_back args "-znognustack" in
  let args :=
    match Triple.getArch targetTriple with
    | Triple.aarch64 | Triple.aarch64_be =>
        push_back args "--image-base=0x200100000"
    | _ => args
    end in
  let args :=
    match Triple.getArch targetTriple with
    | Triple.x86 => push_back args "-L=/usr/lib/i386"
    | Triple.arm | Triple.armeb | Triple.thumb | Triple.thumbeb =>
        match Triple.getEnvironment targetTriple with
        | Triple.EABI | Triple.GNUEABI => push_back args "-L=/usr/lib/eabi"
        | Triple.EABIHF | Triple.GNUEABIHF =>
            push_back args "-L=/usr/lib/eabihf"
        | _ => push_back args "-L=/usr/lib/oabi"
        end
    | Triple.ppc => push_back args "-L=/usr/lib/powerpc"
    | Triple.sparc => push_back args "-L=/usr/lib/sparc"
    | _ => args
    end in
  push_back args "-L=/usr/lib".

Definition prependTargetCustomization (targetTriple : Triple.T)
    (args : list string) : list string :=
  if Triple.isOSNetBSD targetTriple
  then prependNetBSDCustomization targetTriple args
  else args.

(** ** The option table *)

Inductive ID : Set :=
| OPT_INVALID
| OPT_INPUT
| OPT_v
| OPT_version.

Definition ID_eqb (a b : ID) : bool :=
  match a, b with
  | OPT_INVALID, OPT_INVALID | OPT_INPUT, OPT_INPUT
  | OPT_v, OPT_v | OPT_version, OPT_version => true
  | _, _ => false
  end.

(** Modelled from the spec: [Options.inc], the generated option table that
    [LLDStandaloneOptTable] parses with, is not among the sources.  The
    table recognizes only [-v] and [-version]; every other flag or
    positional argument is passed through. *)
Definition ParseArgs (args : list string) : list ID :=
  map (fun a => if a =? "-v" then OPT_v
                else if a =? "-version" then OPT_version
                else OPT_INPUT) args.

(** [InputArgList::hasArg]. *)
Definition hasArg (args : list ID) (o : ID) : bool := existsb (ID_eqb o) args.

(** ** [main] *)

(** What a run does that can be observed from outside, in order. *)
Inductive event : Type :=
| WithColor_error (text : string)
| Executed (Program : string) (Argv : list string)
| outs (text : string).

Record Run : Type := mkRun {
  trace : list event;
  exit_code : Z
}.

(** The [-flavor] trimming of [main]: the diagnostics it prints and the
    [argc] and [argv] it leaves.  It runs after [argc--; argv++], so [argv]
    starts at the first caller argument. *)
Definition trimFlavor (argc : Z) (argv : list string)
    : list event * Z * list string :=
  if (argc >? 1)%Z && (nth 0 argv "" =? "-flavor") then
    ((if (argc <=? 2)%Z
      then [WithColor_error ("missing arg value for '-flavor'" ++ nl)]
      else []),
     (argc - 2)%Z, skipn 2 argv)
  else ([], argc, argv).

(** The loop [for (int i = 0; i < argc; ++i) Argv.push_back(argv[i])],
    entered at index [i] with [n] iterations to go. *)
Fixpoint appendOriginal (n i : nat) (argv Argv : list string) : list string :=
  match n with
  | O => Argv
  | S n' => appendOriginal n' (S i) argv (push_back Argv (nth i argv ""))
  end.

(** [main], on the process's argument vector.  With an empty vector
    [argsArr[0]] is out of range and the run has no defined outcome. *)
Definition main (argv : list string) : option Run :=
  match findProgramByName LD_LLD_PROGNAME with
  | Err message =>
      Some (mkRun [WithColor_error ("unable to find `" ++ LD_LLD_PROGNAME ++
                                    "' in PATH: " ++ message ++ nl)] 1)
  | Ok Program =>
      match argv with
      | [] => None
      | argv0 :: _ =>
          let argc := Z.of_nat (length argv) in
          let args := ParseArgs (tl argv) in
          let printTarget := hasArg args OPT_v || hasArg args OPT_version in
          let targetTriple := setTargetTriple argv0 in
          let argc := (argc - 1)%Z in
          let argv := tl argv in
          let Argv := push_back [] Program in
          let Argv := prependTargetCustomization targetTriple Argv in
          let '(diag, argc, argv) := trimFlavor argc argv in
          let Argv := appendOriginal (Z.to_nat argc) 0 argv Argv in
          let '(Result, ErrMsg) := ExecuteAndWait Program Argv in
          if (Result <? 0)%Z then
            Some (mkRun (diag ++ [Executed Program Argv;
                                  WithColor_error (ErrMsg ++ nl)]) 1)
          else
            Some (mkRun (diag ++ [Executed Program Argv] ++
                         (if printTarget
                          then [outs ("Target: " ++ Triple.str targetTriple
                                      ++ nl)]
                          else []))
                        Result)
      end
  end.

End Driver.

(** ** The specification's vocabulary *)

(** The customization flags produced for a triple: what
    [prependTargetCustomization] pushes. *)
Definition customization_flags (t : Triple.T) : list string :=
  prependTargetCustomization t [].

(** The caller's arguments as the specification forwards them: the
    [-flavor] flag and its value are dropped when they are the first two
    arguments, and nothing else is touched. *)
Definition strip_flavor_pair (args : list string) : list string :=
  match args with
  | flag :: _ :: rest => if flag =? "-flavor" then rest else args
  | _ => args
  end.

(** The three loader workarounds, in their fixed order. *)
Definition loader_workarounds : list string :=
  ["--no-rosegment"; "--disable-new-dtags"; "-znognustack"].

(** The image-base flag of the specification: 64-bit ARM, either
    endianness. *)
Definition image_base_flags (arch : Triple.ArchType) : list string :=
  match arch with
  | Triple.aarch64 | Triple.aarch64_be => ["--image-base=0x200100000"]
  | _ => []
  end.

Definition is_arm32 (arch : Triple.ArchType) : bool :=
  match arch with
  | Triple.arm | Triple.armeb | Triple.thumb | Triple.thumbeb => true
  | _ => false
  end.

(** The architecture-specific library search path of the specification's
    table. *)
Definition arch_library_path (arch : Triple.ArchType)
    (env : Triple.EnvironmentType) : list string :=
  if is_arm32 arch then
    match env with
    | Triple.EABI | Triple.GNUEABI => ["-L=/usr/lib/eabi"]
    | Triple.EABIHF | Triple.GNUEABIHF => ["-L=/usr/lib/eabihf"]
    | _ => ["-L=/usr/lib/oabi"]
    end
  else
    match arch with
    | Triple.x86 => ["-L=/usr/lib/i386"]
    | Triple.ppc => ["-L=/usr/lib/powerpc"]
    | Triple.sparc => ["-L=/usr/lib/sparc"]
    | _ => []
    end.

(** The argument vectors handed to the downstream linker during a run. *)
Fixpoint executions (tr : list event) : list (string * list string) :=
  match tr with
  | [] => []
  | Executed Program Argv :: tr' => (Program, Argv) :: executions tr'
  | _ :: tr' => executions tr'
  end.

(** The lines the driver itself writes to standard output. *)
Fixpoint stdout_lines (tr : list event) : list string :=
  match tr with
  | [] => []
  | outs text :: tr' => text :: stdout_lines tr'
  | _ :: tr' => stdout_lines tr'
  end.

(** The diagnostics the driver writes to standard error. *)
Fixpoint stderr_lines (tr : list event) : list string :=
  match tr with
  | [] => []
  | WithColor_error text :: tr' => text :: stderr_lines tr'
  | _ :: tr' => stderr_lines tr'
  end.

(** Whether [-v] or [-version] is among the caller's arguments. *)
Definition asks_version (args : list string) : bool :=
  existsb (fun a => (a =? "-v") || (a =? "-version")) args.

(** ** LLVM's side on a POSIX host

    The library functions behind [Platform] as LLVM implements them, so
    that the driver can be run on concrete command lines.  They are inputs
    of the examples only: every general theorem below holds for all
    platforms. *)

Module LLVM.

(** [llvm::sys::path::filename] for a POSIX path that does not end in a
    separator: the text after the last [/]. *)
Definition filename (path : string) : string :=
  match rfind "/" path with
  | Some i => substr path (S i) (String.length path - S i)
  | None => path
  end.

(** [llvm::sys::path::stem]: the file name up to its last dot. *)
Definition stem (path : string) : string :=
  let fname := filename path in
  match rfind "." fname with
  | None => fname
  | Some pos =>
      if (fname =? ".") || (fname =? "..") then fname
      else substr fname 0 pos
  end.

(** The text before and after the first [ch] of [s]. *)
Fixpoint cut (ch : ascii) (s : string) : option (string * string) :=
  match s with
  | EmptyString => None
  | String a s' =>
      if Ascii.eqb a ch then Some (EmptyString, s')
      else match cut ch s' with
           | Some (l, r) => Some (String a l, r)
           | None => None
           end
  end.

(** [StringRef::split(Components, Separator, MaxSplit)], empty fields
    kept. *)
Fixpoint split (Separator : ascii) (MaxSplit : nat) (s : string)
    : list string :=
  match MaxSplit with
  | O => [s]
  | S k =>
      match cut Separator s with
      | None => [s]
      | Some (l, r) => l :: split Separator k r
      end
  end.

(** Rows of [parseArch] for the architecture names used below; LLVM knows
    more spellings. *)
Definition parseArch (ArchName : string) : Triple.ArchType :=
  if (ArchName =? "i386") || (ArchName =? "i486") || (ArchName =? "i586")
     || (ArchName =? "i686") then Triple.x86
  else if (ArchName =? "amd64") || (ArchName =? "x86_64") then Triple.x86_64
  else if (ArchName =? "powerpc") || (ArchName =? "ppc") then Triple.ppc
  else if (ArchName =? "aarch64") || (ArchName =? "arm64") then Triple.aarch64
  else if ArchName =? "aarch64_be" then Triple.aarch64_be
  else if ArchName =? "arm" then Triple.arm
  else if ArchName =? "armeb" then Triple.armeb
  else if ArchName =? "thumb" then Triple.thumb
  else if ArchName =? "thumbeb" then Triple.thumbeb
  else if ArchName =? "sparc" then Triple.sparc
  else if (ArchName =? "sparcv9") || (ArchName =? "sparc64")
       then Triple.sparcv9
  else Triple.UnknownArch.

(** Rows of [parseOS], which matches on the start of the name. *)
Definition parseOS (OSName : string) : Triple.OSType :=
  if prefix "freebsd" OSName then Triple.FreeBSD
  else if prefix "linux" OSName then Triple.Linux
  else if prefix "netbsd" OSName then Triple.NetBSD
  else if prefix "openbsd" OSName then Triple.OpenBSD
  else Triple.UnknownOS.

(** Rows of [parseEnvironment], in the library's order. *)
Definition parseEnvironment (EnvironmentName : string)
    : Triple.EnvironmentType :=
  if prefix "eabihf" EnvironmentName then Triple.EABIHF
  else if prefix "eabi" EnvironmentName then Triple.EABI
  else if prefix "gnueabihf" EnvironmentName then Triple.GNUEABIHF
  else if prefix "gnueabi" EnvironmentName then Triple.GNUEABI
  else if prefix "gnu" EnvironmentName then Triple.GNU
  else Triple.UnknownEnvironment.

(** The constructor [llvm::Triple(Str)].  It does no normalization: the
    text is split at its first three hyphens and the fields are read by
    position, architecture, vendor, operating system, environment.  A
    name with fewer than three fields therefore has no operating system.
    (For a single field LLVM derives an environment from MIPS names; the
    names used below are not of that kind.) *)
Definition Triple (Str : string) : Triple.T :=
  let Components := split "-" 3 Str in
  Triple.mk Str
    (match Components with
     | c0 :: _ => parseArch c0
     | [] => Triple.UnknownArch
     end)
    (match Components with
     | _ :: _ :: c2 :: _ => parseOS c2
     | _ => Triple.UnknownOS
     end)
    (match Components with
     | _ :: _ :: _ :: c3 :: _ => parseEnvironment c3
     | _ => Triple.UnknownEnvironment
     end).

(** The architectures with a registered target after
    [InitializeAllTargets] in a build with these back ends. *)
Definition registered : list Triple.ArchType :=
  [Triple.aarch64; Triple.aarch64_be; Triple.arm; Triple.armeb;
   Triple.thumb; Triple.thumbeb; Triple.ppc; Triple.sparc; Triple.sparcv9;
   Triple.x86; Triple.x86_64].

(** [TargetRegistry::lookupTarget(name, error)]: a target is chosen by the
    architecture of the parsed name alone. *)
Definition lookupTarget (name : string) : bool :=
  existsb (fun a => if Triple.ArchType_eq_dec a (Triple.getArch (Triple name))
                    then true else false) registered.

(** A host with the given default triple, [PATH] lookup result and
    downstream linker behaviour. *)
Definition host (default : string) (lookup : ErrorOr string)
    (child : list string -> Z * string) : Platform :=
  Build_Platform stem lookupTarget Triple default
    (fun name => if name =? "ld.lld" then lookup
                 else Err "No such file or directory")
    (fun _ Argv => child Argv).

(** A NetBSD/amd64 host with [ld.lld] installed; the link succeeds. *)
Definition netbsd_host : Platform :=
  host "x86_64--netbsd" (Ok "/usr/bin/ld.lld") (fun _ => (0%Z, "")).

(** A Linux host with [ld.lld] installed; the link fails with status 2. *)
Definition linux_host : Platform :=
  host "x86_64-unknown-linux-gnu" (Ok "/usr/bin/ld.lld")
       (fun _ => (2%Z, "")).

(** A Linux host without [ld.lld] on the search path. *)
Definition bare_host : Platform :=
  host "x86_64-unknown-linux-gnu" (Err "No such file or directory")
       (fun _ => (0%Z, "")).

(** A Linux host on which [ld.lld] is found but cannot be started. *)
Definition broken_host : Platform :=
  host "x86_64-unknown-linux-gnu" (Ok "/usr/bin/ld.lld")
       (fun _ => ((-1)%Z, "Couldn't execute program '/usr/bin/ld.lld'")).

(** How the child process of [ExecuteAndWait] ended. *)
Inductive ProcessEnd : Type :=
| NotLaunched (reason : string)
| Exited (status : Z)
| Signaled (description : string).

(** The result code and [ErrMsg] of [ExecuteAndWait] on a Unix host.  A
    child that could not be started gives -1.  A child that ran and
    exited gives its exit status, except that the statuses 127 and 126
    are reported as -1 as well; a child ended by a signal gives -2. *)
Definition ExecuteAndWait_result (e : ProcessEnd) : Z * string :=
  match e with
  | NotLaunched reason => ((-1)%Z, reason)
  | Exited status =>
      if (status =? 127)%Z then ((-1)%Z, "No such file or directory")
      else if (status =? 126)%Z then ((-1)%Z, "Program could not be executed")
      else (status, "")
  | Signaled description => ((-2)%Z, description)
  end.

(** Whether the child was started at all. *)
Definition launched (e : ProcessEnd) : bool :=
  match e with
  | NotLaunched _ => false
  | _ => true
  end.

(** A Linux host with [ld.lld] installed, on which the linker ends as
    [e]. *)
Definition linux_host_ending (e : ProcessEnd) : Platform :=
  host "x86_64-unknown-linux-gnu" (Ok "/usr/bin/ld.lld")
       (fun _ => ExecuteAndWait_result e).

End LLVM.

(** The diagnostic the [-flavor] trimming prints: it appears exactly when
    the caller's arguments are [-flavor] and one more token. *)
Definition flavor_diagnostic (args : list string) : list event :=
  match args with
  | [flag; _] =>
      if flag =? "-flavor"
      then [WithColor_error ("missing arg value for '-flavor'" ++ nl)]
      else []
  | _ => []
  end.

(** What follows the subprocess call in [main]. *)
Definition after_execution (Result : Z) (ErrMsg : string)
    (printTarget : bool) (t : Triple.T) : list event :=
  if (Result <? 0)%Z then [WithColor_error (ErrMsg ++ nl)]
  else if printTarget then [outs ("Target: " ++ Triple.str t ++ nl)]
  else [].

(** * Properties *)

(** ** Strings *)

Lemma rfind_None (ch : ascii) (s : string) :
  rfind ch s = None <-> has_char ch s = false.
Proof.
  induction s as [|a s IH]; simpl.
  - tauto.
  - destruct (rfind ch s) as [i|].
    + split; [discriminate|].
      intros E. apply orb_false_iff in E as [_ E].
      apply IH in E. discriminate.
    + destruct (Ascii.eqb a ch); simpl.
      * split; discriminate.
      * split; intros _; [now apply IH | reflexivity].
Qed.

Lemma rfind_last (ch : ascii) (p q : string) :
  has_char ch q = false ->
  rfind ch (p ++ String ch q)%string = Some (String.length p).
Proof.
  intros Hq. induction p as [|a p IH]; simpl.
  - apply rfind_None in Hq. rewrite Hq, Ascii.eqb_refl. reflexivity.
  - rewrite IH. reflexivity.
Qed.

Lemma substr_prefix (p q : string) :
  substr (p ++ q)%string 0 (String.length p) = p.
Proof.
  unfold substr. induction p as [|a p IH]; simpl.
  - destruct q; reflexivity.
  - now rewrite IH.
Qed.

Lemma rfind_Some (ch : ascii) (s : string) (i : nat) :
  rfind ch s = Some i ->
  exists q, s = (substr s 0 i ++ String ch q)%string /\ has_char ch q = false.
Proof.
  revert i. induction s as [|a s IH]; simpl; intros i E; [discriminate|].
  destruct (rfind ch s) as [j|] eqn:Ej.
  - injection E as <-. destruct (IH j eq_refl) as (q & Hs & Hq).
    exists q. split; [|exact Hq].
    unfold substr in *. simpl. now rewrite <- Hs.
  - destruct (Ascii.eqb a ch) eqn:Ea; [|discriminate].
    injection E as <-. apply Ascii.eqb_eq in Ea. subst a.
    exists s. split; [reflexivity|]. now apply rfind_None.
Qed.

(** ** The customization table *)

Lemma prependNetBSDCustomization_shape (t : Triple.T) (v : list string) :
  prependNetBSDCustomization t v =
  v ++ loader_workarounds ++ image_base_flags (Triple.getArch t) ++
  arch_library_path (Triple.getArch t) (Triple.getEnvironment t) ++
  ["-L=/usr/lib"].
Proof.
  unfold prependNetBSDCustomization, push_back, loader_workarounds.
  destruct (Triple.getArch t); simpl;
    try (destruct (Triple.getEnvironment t); simpl);
    repeat rewrite <- app_assoc; reflexivity.
Qed.

Lemma isOSNetBSD_true (t : Triple.T) :
  Triple.isOSNetBSD t = true <-> Triple.getOS t = Triple.NetBSD.
Proof.
  unfold Triple.isOSNetBSD.
  destruct (Triple.getOS t); split; intros E; try reflexivity; discriminate.
Qed.

Lemma isOSNetBSD_false (t : Triple.T) :
  Triple.isOSNetBSD t = false <-> Triple.getOS t <> Triple.NetBSD.
Proof.
  rewrite <- isOSNetBSD_true. destruct (Triple.isOSNetBSD t).
  - split; [discriminate | intros E; now elim E].
  - split; [discriminate | reflexivity].
Qed.

Lemma prependTargetCustomization_app (t : Triple.T) (v : list string) :
  prependTargetCustomization t v = v ++ customization_flags t.
Proof.
  unfold customization_flags, prependTargetCustomization.
  destruct (Triple.isOSNetBSD t).
  - now rewrite !prependNetBSDCustomization_shape.
  - now rewrite app_nil_r.
Qed.

Lemma customization_flags_NetBSD (t : Triple.T) :
  Triple.getOS t = Triple.NetBSD ->
  customization_flags t =
  loader_workarounds ++ image_base_flags (Triple.getArch t) ++
  arch_library_path (Triple.getArch t) (Triple.getEnvironment t) ++
  ["-L=/usr/lib"].
Proof.
  intros E. apply isOSNetBSD_true in E.
  unfold customization_flags, prependTargetCustomization. rewrite E.
  now rewrite prependNetBSDCustomization_shape.
Qed.

Lemma customization_flags_other (t : Triple.T) :
  Triple.getOS t <> Triple.NetBSD -> customization_flags t = [].
Proof.
  intros E. apply isOSNetBSD_false in E.
  unfold customization_flags, prependTargetCustomization. now rewrite E.
Qed.

(** ** The argument loop and the [-flavor] trimming *)

Lemma skipn_nth_cons {A : Type} (d : A) (l : list A) (i : nat) :
  i < length l -> skipn i l = nth i l d :: skipn (S i) l.
Proof.
  revert i. induction l as [|x l IH]; intros [|i] Hi; simpl in *; try lia.
  - reflexivity.
  - apply IH. lia.
Qed.

Lemma appendOriginal_firstn (n i : nat) (argv Argv : list string) :
  i + n <= length argv ->
  appendOriginal n i argv Argv = Argv ++ firstn n (skipn i argv).
Proof.
  revert i Argv. induction n as [|n IH]; intros i Argv Hn; simpl.
  - now rewrite app_nil_r.
  - rewrite IH by lia. unfold push_back.
    rewrite (skipn_nth_cons "" argv i) by lia.
    rewrite <- app_assoc. reflexivity.
Qed.

Lemma appendOriginal_all (argv Argv : list string) :
  appendOriginal (length argv) 0 argv Argv = Argv ++ argv.
Proof.
  rewrite appendOriginal_firstn by (simpl; lia).
  simpl. now rewrite firstn_all.
Qed.

Lemma trimFlavor_strip (args : list string) :
  trimFlavor (Z.of_nat (length args)) args =
  (flavor_diagnostic args,
   Z.of_nat (length (strip_flavor_pair args)),
   strip_flavor_pair args).
Proof.
  unfold trimFlavor.
  destruct args as [|a [|b [|c rest]]]; try reflexivity.
  - simpl. destruct (a =? "-flavor"); reflexivity.
  - replace (Z.of_nat (length (a :: b :: c :: rest)) >? 1)%Z with true
      by (symmetry; apply Z.gtb_lt; simpl length; lia).
    replace (Z.of_nat (length (a :: b :: c :: rest)) <=? 2)%Z with false
      by (symmetry; apply Z.leb_gt; simpl length; lia).
    cbn [nth andb strip_flavor_pair flavor_diagnostic skipn].
    destruct (a =? "-flavor"); [|reflexivity].
    f_equal. f_equal. simpl length. lia.
Qed.

Lemma hasArg_asks_version (args : list string) :
  hasArg (ParseArgs args) OPT_v || hasArg (ParseArgs args) OPT_version =
  asks_version args.
Proof.
  unfold hasArg, ParseArgs, asks_version.
  induction args as [|a args IH]; [reflexivity|].
  cbn [map existsb]. rewrite <- IH.
  destruct (a =? "-v"); [reflexivity|].
  destruct (a =? "-version"); simpl.
  - now rewrite orb_true_r.
  - reflexivity.
Qed.

Lemma asks_version_In (args : list string) :
  asks_version args = true <-> In "-v" args \/ In "-version" args.
Proof.
  unfold asks_version. rewrite existsb_exists. split.
  - intros (a & Ha & E). apply orb_true_iff in E as [E|E];
      apply String.eqb_eq in E; subst a; auto.
  - intros [H|H]; eexists; (split; [exact H|]); reflexivity.
Qed.

(** ** [main] as a whole *)

Section MainFacts.

Context {P : Platform}.

Lemma main_not_found (argv : list string) (message : string) :
  findProgramByName LD_LLD_PROGNAME = Err message ->
  main argv =
  Some (mkRun [WithColor_error ("unable to find `ld.lld' in PATH: " ++
                                message ++ nl)] 1).
Proof.
  intros E. unfold main. rewrite E. reflexivity.
Qed.

Lemma main_found (argv0 : string) (args : list string) (Program : string) :
  findProgramByName LD_LLD_PROGNAME = Ok Program ->
  let t := setTargetTriple argv0 in
  let Argv := Program :: customization_flags t ++ strip_flavor_pair args in
  let Result := fst (ExecuteAndWait Program Argv) in
  let ErrMsg := snd (ExecuteAndWait Program Argv) in
  main (argv0 :: args) =
  Some (mkRun (flavor_diagnostic args ++ Executed Program Argv ::
               after_execution Result ErrMsg (asks_version args) t)
              (if (Result <? 0)%Z then 1%Z else Result)).
Proof.
  intros E t Argv Result ErrMsg. unfold main. rewrite E.
  cbn [tl]. rewrite hasArg_asks_version.
  replace (Z.of_nat (length (argv0 :: args)) - 1)%Z
    with (Z.of_nat (length args)) by (simpl length; lia).
  rewrite trimFlavor_strip. rewrite Nat2Z.id, appendOriginal_all.
  rewrite prependTargetCustomization_app. unfold push_back.
  cbn [app]. fold t. fold Argv.
  subst Result ErrMsg. unfold after_execution.
  destruct (ExecuteAndWait Program Argv) as [Result ErrMsg]. cbn [fst snd].
  destruct (Result <? 0)%Z; [reflexivity|].
  destruct (asks_version args); reflexivity.
Qed.

End MainFacts.

(** ** Reading a trace *)

Lemma executions_app (tr1 tr2 : list event) :
  executions (tr1 ++ tr2) = executions tr1 ++ executions tr2.
Proof.
  induction tr1 as [|[text|Program Argv|text] tr1 IH]; simpl;
    now rewrite ?IH.
Qed.

Lemma stdout_lines_app (tr1 tr2 : list event) :
  stdout_lines (tr1 ++ tr2) = stdout_lines tr1 ++ stdout_lines tr2.
Proof.
  induction tr1 as [|[text|Program Argv|text] tr1 IH]; simpl;
    now rewrite ?IH.
Qed.

Lemma stderr_lines_app (tr1 tr2 : list event) :
  stderr_lines (tr1 ++ tr2) = stderr_lines tr1 ++ stderr_lines tr2.
Proof.
  induction tr1 as [|[text|Program Argv|text] tr1 IH]; simpl;
    now rewrite ?IH.
Qed.

Lemma flavor_diagnostic_quiet (args : list string) :
  executions (flavor_diagnostic args) = [] /\
  stdout_lines (flavor_diagnostic args) = [].
Proof.
  destruct args as [|a [|b [|c rest]]]; simpl; auto.
  destruct (a =? "-flavor"); simpl; auto.
Qed.

Lemma after_execution_no_exec (Result : Z) (ErrMsg : string) (b : bool)
    (t : Triple.T) :
  executions (after_execution Result ErrMsg b t) = [].
Proof.
  unfold after_execution.
  destruct (Result <? 0)%Z; [reflexivity|]. destruct b; reflexivity.
Qed.

Lemma executions_of_run (args : list string) (Program : string)
    (Argv : list string) (tail : list event) :
  executions tail = [] ->
  executions (flavor_diagnostic args ++ Executed Program Argv :: tail) =
  [(Program, Argv)].
Proof.
  intros E. rewrite executions_app. simpl. rewrite E.
  now rewrite (proj1 (flavor_diagnostic_quiet args)).
Qed.

(** * The claims *)

(** C1: whenever the downstream linker is run, the argument vector it
    receives is the resolved linker path, then the customization flags of
    the resolved triple, then the caller's arguments in their order, from
    which the [-flavor] flag and its value are removed when, and only
    when, they are the first two caller arguments; the linker is run once
    and nothing else is added, dropped or moved. *)
Theorem C1_argument_vector {P : Platform} (argv0 : string)
    (args : list string) (Program : string) :
  findProgramByName LD_LLD_PROGNAME = Ok Program ->
  (exists r,
     main (argv0 :: args) = Some r /\
     executions (trace r) =
     [(Program,
       Program :: customization_flags (setTargetTriple argv0) ++
       strip_flavor_pair args)]) /\
  (forall value rest,
     args = "-flavor" :: value :: rest -> strip_flavor_pair args = rest) /\
  ((forall value rest, args <> "-flavor" :: value :: rest) ->
   strip_flavor_pair args = args).
Proof.
  intros E. split; [|split].
  - eexists. split; [apply (main_found argv0 args Program E)|].
    cbn [trace]. apply executions_of_run, after_execution_no_exec.
  - intros value rest ->. reflexivity.
  - intros Hno. destruct args as [|a [|b rest]]; try reflexivity.
    simpl. destruct (a =? "-flavor") eqn:Ea; [|reflexivity].
    apply String.eqb_eq in Ea. subst a. now elim (Hno b rest).
Qed.

Lemma C1_argument_vector_witness :
  exists r,
    @main LLVM.netbsd_host ["ld.lld"; "-flavor"; "gnu"; "-o"; "out"] = Some r
    /\ executions (trace r) =
       [("/usr/bin/ld.lld",
         ["/usr/bin/ld.lld"; "--no-rosegment"; "--disable-new-dtags";
          "-znognustack"; "-L=/usr/lib"; "-o"; "out"])].
Proof.
  exact (proj1 (@C1_argument_vector LLVM.netbsd_host "ld.lld"
                  ["-flavor"; "gnu"; "-o"; "out"] "/usr/bin/ld.lld"
                  eq_refl)).
Defined.

(** C2: target resolution is total and has two branches.  When the stem of
    the invocation path is [prefix-suffix], with no further hyphen in the
    suffix, and the registry recognizes [prefix], the resolved triple is
    the parsed [prefix], whatever the suffix.  In every other case (no
    hyphen in the stem, or a prefix the registry rejects) it is the parsed
    default triple of the host.  One of the two always applies. *)
Theorem C2_setTargetTriple_two_branches {P : Platform} (argv0 : string) :
  (forall prefix suffix,
     stem argv0 = (prefix ++ "-" ++ suffix)%string ->
     has_char "-" suffix = false ->
     lookupTarget prefix = true ->
     setTargetTriple argv0 = Triple_ctor prefix) /\
  ((forall prefix suffix,
      stem argv0 = (prefix ++ "-" ++ suffix)%string ->
      has_char "-" suffix = false ->
      lookupTarget prefix = false) ->
   setTargetTriple argv0 = Triple_ctor getDefaultTargetTriple) /\
  ((exists prefix suffix,
      stem argv0 = (prefix ++ "-" ++ suffix)%string /\
      has_char "-" suffix = false /\
      lookupTarget prefix = true /\
      setTargetTriple argv0 = Triple_ctor prefix) \/
   ((forall prefix suffix,
       stem argv0 = (prefix ++ "-" ++ suffix)%string ->
       has_char "-" suffix = false ->
       lookupTarget prefix = false) /\
    setTargetTriple argv0 = Triple_ctor getDefaultTargetTriple)).
Proof.
  assert (Hrec : forall prefix suffix,
             stem argv0 = (prefix ++ "-" ++ suffix)%string ->
             has_char "-" suffix = false ->
             setTargetTriple argv0 =
             if lookupTarget prefix then Triple_ctor prefix
             else Triple_ctor getDefaultTargetTriple).
  { intros prefix suffix Hs Hsuf. unfold setTargetTriple. rewrite Hs.
    change ("-" ++ suffix)%string with (String "-" suffix).
    rewrite (rfind_last "-" prefix suffix Hsuf), substr_prefix.
    reflexivity. }
  assert (Hno : (forall prefix suffix,
                   stem argv0 = (prefix ++ "-" ++ suffix)%string ->
                   has_char "-" suffix = false ->
                   lookupTarget prefix = false) ->
                setTargetTriple argv0 = Triple_ctor getDefaultTargetTriple).
  { intros Hall. unfold setTargetTriple.
    destruct (rfind "-" (stem argv0)) as [i|] eqn:Ei; [|reflexivity].
    destruct (rfind_Some _ _ _ Ei) as (q & Hs & Hq).
    now rewrite (Hall _ q Hs Hq). }
  split; [|split].
  - intros prefix suffix Hs Hsuf Hl.
    rewrite (Hrec prefix suffix Hs Hsuf), Hl. reflexivity.
  - exact Hno.
  - destruct (rfind "-" (stem argv0)) as [i|] eqn:Ei.
    + destruct (rfind_Some _ _ _ Ei) as (q & Hs & Hq).
      destruct (lookupTarget (substr (stem argv0) 0 i)) eqn:Hl.
      * left. exists (substr (stem argv0) 0 i), q.
        repeat split; trivial.
        rewrite (Hrec _ q Hs Hq), Hl. reflexivity.
      * right.
        assert (Hall : forall prefix suffix,
                   stem argv0 = (prefix ++ "-" ++ suffix)%string ->
                   has_char "-" suffix = false ->
                   lookupTarget prefix = false).
        { intros prefix suffix Hs' Hsuf.
          assert (Hp : substr (stem argv0) 0 i = prefix).
          { pose proof (rfind_last "-" prefix suffix Hsuf) as Hr.
            change (String "-" suffix) with ("-" ++ suffix)%string in Hr.
            rewrite <- Hs', Ei in Hr. injection Hr as ->.
            rewrite Hs'. apply substr_prefix. }
          now rewrite <- Hp. }
        split; [exact Hall | exact (Hno Hall)].
    + right.
      assert (Hall : forall prefix suffix,
                 stem argv0 = (prefix ++ "-" ++ suffix)%string ->
                 has_char "-" suffix = false ->
                 lookupTarget prefix = false).
      { intros prefix suffix Hs' Hsuf. exfalso.
        pose proof (rfind_last "-" prefix suffix Hsuf) as Hr.
        change (String "-" suffix) with ("-" ++ suffix)%string in Hr.
        rewrite <- Hs', Ei in Hr. discriminate. }
      split; [exact Hall | exact (Hno Hall)].
Qed.

Lemma C2_setTargetTriple_two_branches_witness :
  @setTargetTriple LLVM.netbsd_host "/usr/bin/armeb--netbsd-eabihf-ld" =
  LLVM.Triple "armeb--netbsd-eabihf".
Proof.
  exact (proj1 (@C2_setTargetTriple_two_branches LLVM.netbsd_host
                  "/usr/bin/armeb--netbsd-eabihf-ld")
           "armeb--netbsd-eabihf" "ld" eq_refl eq_refl eq_refl).
Defined.

(** C3: for every triple whose operating system is NetBSD, whatever its
    architecture and environment, the flags pushed by the customization
    begin with [--no-rosegment], [--disable-new-dtags], [-znognustack], in
    this order, and end with [-L=/usr/lib]. *)
Theorem C3_netbsd_flags_begin_and_end (t : Triple.T) :
  Triple.getOS t = Triple.NetBSD ->
  exists middle,
    customization_flags t =
    ["--no-rosegment"; "--disable-new-dtags"; "-znognustack"] ++ middle ++
    ["-L=/usr/lib"] /\
    forall v,
      prependTargetCustomization t v =
      v ++ ["--no-rosegment"; "--disable-new-dtags"; "-znognustack"] ++
      middle ++ ["-L=/usr/lib"].
Proof.
  intros E.
  exists (image_base_flags (Triple.getArch t) ++
          arch_library_path (Triple.getArch t) (Triple.getEnvironment t)).
  pose proof (customization_flags_NetBSD t E) as Hc.
  unfold loader_workarounds in Hc. rewrite <- app_assoc.
  split; [exact Hc|].
  intros v. now rewrite prependTargetCustomization_app, Hc.
Qed.

Lemma C3_netbsd_flags_begin_and_end_witness :
  exists middle,
    customization_flags (LLVM.Triple "sparc--netbsd") =
    ["--no-rosegment"; "--disable-new-dtags"; "-znognustack"] ++ middle ++
    ["-L=/usr/lib"] /\
    forall v,
      prependTargetCustomization (LLVM.Triple "sparc--netbsd") v =
      v ++ ["--no-rosegment"; "--disable-new-dtags"; "-znognustack"] ++
      middle ++ ["-L=/usr/lib"].
Proof.
  exact (C3_netbsd_flags_begin_and_end (LLVM.Triple "sparc--netbsd") eq_refl).
Defined.

(** C4: for every triple whose operating system is not NetBSD the
    customization pushes nothing, and a run that resolves to such a triple
    hands the downstream linker exactly its path followed by the caller's
    arguments without the leading [-flavor] pair. *)
Theorem C4_other_os_no_flags {P : Platform} (argv0 : string)
    (args : list string) (Program : string) :
  (forall t v,
     Triple.getOS t <> Triple.NetBSD ->
     customization_flags t = [] /\ prependTargetCustomization t v = v) /\
  (Triple.getOS (setTargetTriple argv0) <> Triple.NetBSD ->
   findProgramByName LD_LLD_PROGNAME = Ok Program ->
   exists r,
     main (argv0 :: args) = Some r /\
     executions (trace r) = [(Program, Program :: strip_flavor_pair args)]).
Proof.
  split.
  - intros t v E. pose proof (customization_flags_other t E) as Hc.
    split; [exact Hc|].
    now rewrite prependTargetCustomization_app, Hc, app_nil_r.
  - intros E Hfound. eexists.
    split; [apply (main_found argv0 args Program Hfound)|].
    cbn [trace]. rewrite (customization_flags_other _ E). cbn [app].
    apply executions_of_run, after_execution_no_exec.
Qed.

Lemma C4_other_os_no_flags_witness :
  exists r,
    @main LLVM.linux_host ["ld.lld"; "-o"; "out"; "a.o"] = Some r /\
    executions (trace r) =
    [("/usr/bin/ld.lld", ["/usr/bin/ld.lld"; "-o"; "out"; "a.o"])].
Proof.
  refine (proj2 (@C4_other_os_no_flags LLVM.linux_host "ld.lld"
                   ["-o"; "out"; "a.o"] "/usr/bin/ld.lld") _ eq_refl).
  discriminate.
Defined.

(** C5, first part as claimed and the example amended: under NetBSD the
    flag [--image-base=0x200100000] is among the customization flags
    exactly for the architectures aarch64 and aarch64_be.  A run with no
    caller arguments whose invocation name resolves to an aarch64 NetBSD
    triple hands the linker its path, the three workarounds, the image
    base and [-L=/usr/lib]; with LLVM's positional reading of triples the
    name [aarch64--netbsd-ld] is such a name. *)
Theorem C5_image_base_amended :
  (forall t,
     Triple.getOS t = Triple.NetBSD ->
     (In "--image-base=0x200100000" (customization_flags t) <->
      Triple.getArch t = Triple.aarch64 \/
      Triple.getArch t = Triple.aarch64_be)) /\
  (forall (P : Platform) argv0 Program,
     Triple.getOS (setTargetTriple argv0) = Triple.NetBSD ->
     Triple.getArch (setTargetTriple argv0) = Triple.aarch64 ->
     findProgramByName LD_LLD_PROGNAME = Ok Program ->
     exists r,
       main [argv0] = Some r /\
       executions (trace r) =
       [(Program,
         [Program; "--no-rosegment"; "--disable-new-dtags"; "-znognustack";
          "--image-base=0x200100000"; "-L=/usr/lib"])]) /\
  (let t := @setTargetTriple LLVM.netbsd_host "aarch64--netbsd-ld" in
   Triple.getOS t = Triple.NetBSD /\ Triple.getArch t = Triple.aarch64).
Proof.
  split; [|split].
  - intros t E. rewrite (customization_flags_NetBSD t E).
    unfold loader_workarounds.
    destruct (Triple.getArch t); simpl;
      try (destruct (Triple.getEnvironment t); simpl);
      split; intros H;
      repeat (destruct H as [H|H]; try discriminate H);
      try contradiction; auto 10.
  - intros P argv0 Program Hos Harch Hfound. eexists.
    split; [apply (main_found argv0 [] Program Hfound)|].
    cbn [trace]. rewrite (customization_flags_NetBSD _ Hos), Harch.
    cbn [strip_flavor_pair loader_workarounds image_base_flags
         arch_library_path is_arm32 app].
    apply (executions_of_run []), after_execution_no_exec.
  - split; reflexivity.
Qed.

Lemma C5_image_base_amended_witness :
  exists r,
    @main LLVM.netbsd_host ["aarch64--netbsd-ld"] = Some r /\
    executions (trace r) =
    [("/usr/bin/ld.lld",
      ["/usr/bin/ld.lld"; "--no-rosegment"; "--disable-new-dtags";
       "-znognustack"; "--image-base=0x200100000"; "-L=/usr/lib"])].
Proof.
  exact (proj1 (proj2 C5_image_base_amended) LLVM.netbsd_host
           "aarch64--netbsd-ld" "/usr/bin/ld.lld" eq_refl eq_refl eq_refl).
Defined.

(** C5 as stated fails on its example: the prefix [aarch64-netbsd] of the
    invocation name [aarch64-netbsd-ld] is recognized by the registry, but
    it has two fields only, [netbsd] stands where the vendor is read, the
    operating system of the resolved triple is unknown and the linker
    receives its path alone. *)
Lemma C5_example_counterexample :
  LLVM.lookupTarget "aarch64-netbsd" = true /\
  Triple.getOS (@setTargetTriple LLVM.netbsd_host "aarch64-netbsd-ld") =
  Triple.UnknownOS /\
  @main LLVM.netbsd_host ["aarch64-netbsd-ld"] =
  Some (mkRun [Executed "/usr/bin/ld.lld" ["/usr/bin/ld.lld"]] 0) /\
  ~ (exists r,
       @main LLVM.netbsd_host ["aarch64-netbsd-ld"] = Some r /\
       executions (trace r) =
       [("/usr/bin/ld.lld",
         ["/usr/bin/ld.lld"; "--no-rosegment"; "--disable-new-dtags";
          "-znognustack"; "--image-base=0x200100000"; "-L=/usr/lib"])]).
Proof.
  repeat split; try reflexivity.
  intros (r & Hr & Hex). vm_compute in Hr. injection Hr as <-.
  discriminate Hex.
Qed.

(** C6: under NetBSD the customization is the three workarounds, the image
    base where it applies, the library search path of the architecture and
    finally [-L=/usr/lib].  The architecture's path is [-L=/usr/lib/i386]
    for x86; for arm, armeb, thumb and thumbeb it is [-L=/usr/lib/eabi]
    with environment EABI or GNUEABI, [-L=/usr/lib/eabihf] with EABIHF or
    GNUEABIHF and [-L=/usr/lib/oabi] with any other environment; it is
    [-L=/usr/lib/powerpc] for ppc and [-L=/usr/lib/sparc] for sparc.  These
    architectures get exactly one such flag, every other one gets none. *)
Theorem C6_arch_library_path (t : Triple.T) :
  Triple.getOS t = Triple.NetBSD ->
  let arch := Triple.getArch t in
  let env := Triple.getEnvironment t in
  (forall v,
     prependTargetCustomization t v =
     v ++ ["--no-rosegment"; "--disable-new-dtags"; "-znognustack"] ++
     image_base_flags arch ++ arch_library_path arch env ++
     ["-L=/usr/lib"]) /\
  (arch = Triple.x86 -> arch_library_path arch env = ["-L=/usr/lib/i386"]) /\
  (is_arm32 arch = true ->
   (env = Triple.EABI \/ env = Triple.GNUEABI ->
    arch_library_path arch env = ["-L=/usr/lib/eabi"]) /\
   (env = Triple.EABIHF \/ env = Triple.GNUEABIHF ->
    arch_library_path arch env = ["-L=/usr/lib/eabihf"]) /\
   (env <> Triple.EABI -> env <> Triple.GNUEABI ->
    env <> Triple.EABIHF -> env <> Triple.GNUEABIHF ->
    arch_library_path arch env = ["-L=/usr/lib/oabi"])) /\
  (arch = Triple.ppc -> arch_library_path arch env = ["-L=/usr/lib/powerpc"]) /\
  (arch = Triple.sparc ->
   arch_library_path arch env = ["-L=/usr/lib/sparc"]) /\
  (arch <> Triple.x86 -> is_arm32 arch = false ->
   arch <> Triple.ppc -> arch <> Triple.sparc ->
   arch_library_path arch env = []).
Proof.
  intros E arch env. split.
  { intros v. rewrite prependTargetCustomization_app.
    now rewrite (customization_flags_NetBSD t E). }
  clearbody arch env. clear E.
  split; [|split; [|split; [|split]]].
  - intros ->. reflexivity.
  - intros Ha. unfold arch_library_path. rewrite Ha.
    split; [|split].
    + intros [-> | ->]; reflexivity.
    + intros [-> | ->]; reflexivity.
    + intros H1 H2 H3 H4. destruct env; try reflexivity; contradiction.
  - intros ->. reflexivity.
  - intros ->. reflexivity.
  - intros H1 Ha H2 H3. unfold arch_library_path. rewrite Ha.
    destruct arch; try reflexivity; contradiction.
Qed.

Lemma C6_arch_library_path_witness :
  prependTargetCustomization (LLVM.Triple "armeb--netbsd-eabihf")
    ["/usr/bin/ld.lld"] =
  ["/usr/bin/ld.lld"; "--no-rosegment"; "--disable-new-dtags";
   "-znognustack"; "-L=/usr/lib/eabihf"; "-L=/usr/lib"].
Proof.
  exact (proj1 (C6_arch_library_path (LLVM.Triple "armeb--netbsd-eabihf")
                  eq_refl) ["/usr/bin/ld.lld"]).
Defined.

(** C7, amended: the exit status.  If [ld.lld] is not found on the search
    path the driver reports it on standard error, runs nothing and exits
    with 1.  If the subprocess call returns a negative result the driver
    prints the error text and exits with 1.  In every other case the exit
    status is the result of the call, zero or not, and nothing is reported
    on its account.  Once the linker is found, the exit status is 1
    exactly when the result of the call is negative or is 1 itself. *)
Theorem C7_exit_code_amended {P : Platform} (argv0 : string)
    (args : list string) :
  (forall message,
     findProgramByName LD_LLD_PROGNAME = Err message ->
     exists r,
       main (argv0 :: args) = Some r /\
       exit_code r = 1%Z /\
       executions (trace r) = [] /\
       stderr_lines (trace r) =
       [("unable to find `ld.lld' in PATH: " ++ message ++ nl)%string]) /\
  (forall Program,
     findProgramByName LD_LLD_PROGNAME = Ok Program ->
     let Argv :=
       Program :: customization_flags (setTargetTriple argv0) ++
       strip_flavor_pair args in
     let Result := fst (ExecuteAndWait Program Argv) in
     let ErrMsg := snd (ExecuteAndWait Program Argv) in
     exists r,
       main (argv0 :: args) = Some r /\
       executions (trace r) = [(Program, Argv)] /\
       ((Result < 0)%Z ->
        exit_code r = 1%Z /\
        stderr_lines (trace r) =
        stderr_lines (flavor_diagnostic args) ++ [(ErrMsg ++ nl)%string]) /\
       ((0 <= Result)%Z ->
        exit_code r = Result /\
        stderr_lines (trace r) = stderr_lines (flavor_diagnostic args)) /\
       (exit_code r = 1%Z <-> (Result < 0)%Z \/ Result = 1%Z)).
Proof.
  split.
  - intros message E. eexists.
    split; [apply (main_not_found _ message E)|]. repeat split.
  - intros Program E Argv Result ErrMsg. eexists.
    split; [apply (main_found argv0 args Program E)|]. cbn [trace exit_code].
    split; [apply executions_of_run, after_execution_no_exec|].
    fold Argv. fold Result. fold ErrMsg. unfold after_execution.
    destruct (Result <? 0)%Z eqn:Hneg.
    + apply Z.ltb_lt in Hneg. split; [|split; [lia|]].
      * intros _. split; [reflexivity|]. now rewrite stderr_lines_app.
      * split; [now left | reflexivity].
    + apply Z.ltb_ge in Hneg. split; [lia | split].
      * intros _. split; [reflexivity|]. rewrite stderr_lines_app.
        destruct (asks_version args); simpl; now rewrite app_nil_r.
      * split; [now right | intros [H|H]; [lia | exact H]].
Qed.

Lemma C7_exit_code_amended_witness :
  (exists r,
     @main LLVM.bare_host ["ld.lld"; "-o"; "out"] = Some r /\
     exit_code r = 1%Z /\
     executions (trace r) = [] /\
     stderr_lines (trace r) =
     [("unable to find `ld.lld' in PATH: " ++ "No such file or directory"
       ++ nl)%string]) /\
  (exists r,
     @main LLVM.linux_host ["ld.lld"; "-o"; "out"] = Some r /\
     executions (trace r) =
     [("/usr/bin/ld.lld", ["/usr/bin/ld.lld"; "-o"; "out"])] /\
     exit_code r = 2%Z /\ stderr_lines (trace r) = []).
Proof.
  split.
  - exact (proj1 (@C7_exit_code_amended LLVM.bare_host "ld.lld"
                    ["-o"; "out"])
             "No such file or directory" eq_refl).
  - destruct (proj2 (@C7_exit_code_amended LLVM.linux_host "ld.lld"
                       ["-o"; "out"])
                "/usr/bin/ld.lld" eq_refl) as (r & Hr & Hex & _ & Hok & _).
    exists r. split; [exact Hr|]. split; [exact Hex|].
    apply Hok. simpl. lia.
Defined.

(** C7 as stated fails twice.  A linker that is found and started and
    exits with 1 makes the driver exit with 1, with no diagnostic: 1 is not
    reserved for a linker that cannot be located or launched.  A linker
    that is found and started and exits with 127 makes the driver print an
    error and exit with 1: the linker's status is not relayed. *)
Lemma C7_exit_code_counterexample :
  (LLVM.launched (LLVM.Exited 1) = true /\
   @findProgramByName (LLVM.linux_host_ending (LLVM.Exited 1))
     LD_LLD_PROGNAME = Ok "/usr/bin/ld.lld" /\
   @main (LLVM.linux_host_ending (LLVM.Exited 1)) ["ld.lld"; "a.o"] =
   Some (mkRun [Executed "/usr/bin/ld.lld" ["/usr/bin/ld.lld"; "a.o"]] 1))
  /\
  (LLVM.launched (LLVM.Exited 127) = true /\
   @findProgramByName (LLVM.linux_host_ending (LLVM.Exited 127))
     LD_LLD_PROGNAME = Ok "/usr/bin/ld.lld" /\
   exists r,
     @main (LLVM.linux_host_ending (LLVM.Exited 127)) ["ld.lld"; "a.o"] =
     Some r /\
     executions (trace r) =
     [("/usr/bin/ld.lld", ["/usr/bin/ld.lld"; "a.o"])] /\
     stderr_lines (trace r) = [("No such file or directory" ++ nl)%string] /\
     exit_code r = 1%Z /\ exit_code r <> 127%Z).
Proof.
  split.
  - repeat split.
  - split; [reflexivity|]. split; [reflexivity|].
    eexists. split; [reflexivity|]. repeat split. discriminate.
Qed.

(** C8, amended: when [-v] or [-version] is among the caller's arguments
    and the subprocess call returns a result that is not negative,
    whatever it is, the driver runs the linker and then prints the one
    line [Target: <resolved triple>] on standard output, and exits with
    that result.  When the call returns a negative result the driver
    prints the error, exits with 1 and prints no such line.  When [ld.lld]
    is missing the driver exits with 1 having run nothing and printed no
    such line. *)
Theorem C8_target_line_amended {P : Platform} (argv0 : string)
    (args : list string) :
  In "-v" args \/ In "-version" args ->
  (forall Program,
     findProgramByName LD_LLD_PROGNAME = Ok Program ->
     let Argv :=
       Program :: customization_flags (setTargetTriple argv0) ++
       strip_flavor_pair args in
     let Result := fst (ExecuteAndWait Program Argv) in
     let ErrMsg := snd (ExecuteAndWait Program Argv) in
     let line :=
       ("Target: " ++ Triple.str (setTargetTriple argv0) ++ nl)%string in
     exists r,
       main (argv0 :: args) = Some r /\
       executions (trace r) = [(Program, Argv)] /\
       ((0 <= Result)%Z ->
        trace r =
        flavor_diagnostic args ++ [Executed Program Argv; outs line] /\
        stdout_lines (trace r) = [line] /\
        exit_code r = Result) /\
       ((Result < 0)%Z ->
        trace r =
        flavor_diagnostic args ++
        [Executed Program Argv; WithColor_error (ErrMsg ++ nl)] /\
        stdout_lines (trace r) = [] /\
        exit_code r = 1%Z)) /\
  (forall message,
     findProgramByName LD_LLD_PROGNAME = Err message ->
     exists r,
       main (argv0 :: args) = Some r /\
       exit_code r = 1%Z /\
       executions (trace r) = [] /\
       stdout_lines (trace r) = []).
Proof.
  intros Hv. apply asks_version_In in Hv. split.
  - intros Program E Argv Result ErrMsg line. eexists.
    split; [apply (main_found argv0 args Program E)|].
    cbn [trace exit_code]. fold Argv. fold Result. fold ErrMsg.
    split; [apply executions_of_run, after_execution_no_exec|].
    unfold after_execution. rewrite Hv.
    rewrite stdout_lines_app, (proj2 (flavor_diagnostic_quiet args)).
    destruct (Result <? 0)%Z eqn:Hneg.
    + apply Z.ltb_lt in Hneg. split; [lia|]. intros _. repeat split.
    + apply Z.ltb_ge in Hneg. split; [|lia]. intros _. repeat split.
  - intros message E. eexists.
    split; [apply (main_not_found _ message E)|]. repeat split.
Qed.

Lemma C8_target_line_amended_witness :
  exists r,
    @main LLVM.linux_host ["ld.lld"; "-o"; "out"; "-v"] = Some r /\
    trace r =
    [Executed "/usr/bin/ld.lld" ["/usr/bin/ld.lld"; "-o"; "out"; "-v"];
     outs ("Target: x86_64-unknown-linux-gnu" ++ nl)] /\
    stdout_lines (trace r) = [("Target: x86_64-unknown-linux-gnu" ++ nl)%string]
    /\ exit_code r = 2%Z.
Proof.
  destruct (proj1 (@C8_target_line_amended LLVM.linux_host "ld.lld"
                     ["-o"; "out"; "-v"]
                     (or_introl (or_intror (or_intror (or_introl eq_refl)))))
              "/usr/bin/ld.lld" eq_refl)
    as (r & Hr & _ & Hok & _).
  exists r. split; [exact Hr|]. apply Hok. simpl. lia.
Defined.

(** C8 as stated fails where the linker ran and the call still returns a
    negative result.  With [-v] given, a linker that was started and
    exited with 127, or was ended by a signal, is followed by an error
    message and the exit status 1, and no [Target:] line is printed. *)
Lemma C8_target_line_counterexample :
  (LLVM.launched (LLVM.Exited 127) = true /\
   exists r,
     @main (LLVM.linux_host_ending (LLVM.Exited 127)) ["ld.lld"; "-v"] =
     Some r /\
     executions (trace r) = [("/usr/bin/ld.lld", ["/usr/bin/ld.lld"; "-v"])]
     /\ stdout_lines (trace r) = [] /\ exit_code r = 1%Z) /\
  (LLVM.launched (LLVM.Signaled "Segmentation fault") = true /\
   exists r,
     @main (LLVM.linux_host_ending (LLVM.Signaled "Segmentation fault"))
       ["ld.lld"; "-v"] = Some r /\
     executions (trace r) = [("/usr/bin/ld.lld", ["/usr/bin/ld.lld"; "-v"])]
     /\ stdout_lines (trace r) = [] /\ exit_code r = 1%Z).
Proof.
  split; (split; [reflexivity|]); eexists; (split; [reflexivity|]);
    repeat split.
Qed.

(** C9, evaluated where [-flavor] is the only caller argument: the
    trimming branch is guarded by [argc > 1] after [argc] was decremented,
    so it is not entered; the first thing the run does is execute the
    linker, nothing having been reported, and [-flavor] is forwarded. *)
Theorem C9_flavor_alone_unreported {P : Platform} (argv0 : string)
    (Program : string) :
  findProgramByName LD_LLD_PROGNAME = Ok Program ->
  trimFlavor 1 ["-flavor"] = ([], 1%Z, ["-flavor"]) /\
  exists r tail,
    main [argv0; "-flavor"] = Some r /\
    trace r =
    Executed Program
      (Program :: customization_flags (setTargetTriple argv0) ++ ["-flavor"])
    :: tail /\
    executions tail = [].
Proof.
  intros E. split; [reflexivity|]. eexists. eexists.
  split; [apply (main_found argv0 ["-flavor"] Program E)|].
  cbn [trace flavor_diagnostic strip_flavor_pair app].
  split; [reflexivity | apply after_execution_no_exec].
Qed.

Lemma C9_flavor_alone_unreported_witness :
  exists r tail,
    @main LLVM.linux_host ["ld.lld"; "-flavor"] = Some r /\
    trace r =
    Executed "/usr/bin/ld.lld" ["/usr/bin/ld.lld"; "-flavor"] :: tail /\
    executions tail = [].
Proof.
  exact (proj2 (@C9_flavor_alone_unreported LLVM.linux_host "ld.lld"
                  "/usr/bin/ld.lld" eq_refl)).
Defined.



(** * Further properties of the driver *)

(** X1: whatever the argument vector and the platform, a run never ends
    with a negative exit status: a negative result of the subprocess call
    is turned into 1. *)
Theorem X1_exit_code_never_negative {P : Platform} (argv : list string)
    (r : Run) :
  main argv = Some r -> (0 <= exit_code r)%Z.
Proof.
  intros Hr.
  destruct (findProgramByName LD_LLD_PROGNAME) as [Program|message] eqn:E.
  - destruct argv as [|argv0 args].
    + unfold main in Hr. rewrite E in Hr. discriminate.
    + rewrite (main_found argv0 args Program E) in Hr.
      injection Hr as <-. cbn [exit_code].
      destruct (_ <? 0)%Z eqn:Hneg; [lia | now apply Z.ltb_ge in Hneg].
  - rewrite (main_not_found argv message E) in Hr.
    injection Hr as <-. cbn [exit_code]. lia.
Qed.

Lemma X1_exit_code_never_negative_witness :
  (0 <= exit_code (mkRun [Executed "/usr/bin/ld.lld"
                            ["/usr/bin/ld.lld"; "-o"; "out"]] 2))%Z.
Proof.
  exact (@X1_exit_code_never_negative LLVM.linux_host
           ["ld.lld"; "-o"; "out"] _ eq_refl).
Defined.

(** X2: the driver reports success only on the linker's behalf.  A run
    exits with 0 exactly when [ld.lld] was found, was executed, and the
    call returned 0. *)
Theorem X2_exit_zero_iff_linker_succeeded {P : Platform}
    (argv : list string) (r : Run) :
  main argv = Some r ->
  (exit_code r = 0%Z <->
   exists Program Argv,
     findProgramByName LD_LLD_PROGNAME = Ok Program /\
     executions (trace r) = [(Program, Argv)] /\
     fst (ExecuteAndWait Program Argv) = 0%Z).
Proof.
  intros Hr.
  destruct (findProgramByName LD_LLD_PROGNAME) as [Program|message] eqn:E.
  - destruct argv as [|argv0 args].
    { unfold main in Hr. rewrite E in Hr. discriminate. }
    rewrite (main_found argv0 args Program E) in Hr.
    injection Hr as <-. cbn [exit_code trace].
    rewrite executions_of_run by apply after_execution_no_exec.
    split.
    + intros H0. eexists. eexists.
      split; [reflexivity|]. split; [reflexivity|].
      destruct (_ <? 0)%Z; [discriminate | exact H0].
    + intros (Program' & Argv' & HP & Hex & H0).
      injection HP as <-. injection Hex as <-. rewrite H0. reflexivity.
  - rewrite (main_not_found argv message E) in Hr.
    injection Hr as <-. cbn [exit_code trace]. split; [discriminate|].
    intros (Program' & Argv' & HP & _). discriminate.
Qed.

Lemma X2_exit_zero_iff_linker_succeeded_witness :
  exit_code (mkRun [Executed "/usr/bin/ld.lld"
                      ["/usr/bin/ld.lld"; "--no-rosegment";
                       "--disable-new-dtags"; "-znognustack";
                       "-L=/usr/lib"; "-o"; "out"]] 0) = 0%Z <->
  exists Program Argv,
    @findProgramByName LLVM.netbsd_host LD_LLD_PROGNAME = Ok Program /\
    executions [Executed "/usr/bin/ld.lld"
                  ["/usr/bin/ld.lld"; "--no-rosegment";
                   "--disable-new-dtags"; "-znognustack";
                   "-L=/usr/lib"; "-o"; "out"]] = [(Program, Argv)] /\
    fst (@ExecuteAndWait LLVM.netbsd_host Program Argv) = 0%Z.
Proof.
  exact (@X2_exit_zero_iff_linker_succeeded LLVM.netbsd_host
           ["ld.lld"; "-o"; "out"] _ eq_refl).
Defined.

(** X3: the driver itself writes at most one line to standard output, and
    that line is [Target: <resolved triple>].  It writes none when
    [ld.lld] is missing, and none when the subprocess call returned a
    negative result, whatever the arguments asked for. *)
Theorem X3_stdout_at_most_target_line {P : Platform} (argv0 : string)
    (args : list string) (r : Run) :
  main (argv0 :: args) = Some r ->
  (stdout_lines (trace r) = [] \/
   stdout_lines (trace r) =
   [("Target: " ++ Triple.str (setTargetTriple argv0) ++ nl)%string]) /\
  (forall message,
     findProgramByName LD_LLD_PROGNAME = Err message ->
     stdout_lines (trace r) = []) /\
  (forall Program Argv,
     executions (trace r) = [(Program, Argv)] ->
     (fst (ExecuteAndWait Program Argv) < 0)%Z ->
     stdout_lines (trace r) = []).
Proof.
  intros Hr.
  destruct (findProgramByName LD_LLD_PROGNAME) as [Program|message] eqn:E.
  - rewrite (main_found argv0 args Program E) in Hr.
    injection Hr as <-. cbn [trace].
    rewrite executions_of_run by apply after_execution_no_exec.
    rewrite stdout_lines_app, (proj2 (flavor_diagnostic_quiet args)).
    cbn [app stdout_lines]. unfold after_execution.
    split; [|split].
    + destruct (_ <? 0)%Z; [now left|].
      destruct (asks_version args); [now right | now left].
    + discriminate.
    + intros Program' Argv' Hex Hneg. injection Hex as <- <-.
      apply Z.ltb_lt in Hneg. now rewrite Hneg.
  - rewrite (main_not_found _ message E) in Hr.
    injection Hr as <-. cbn [trace]. split; [now left|].
    split; [reflexivity|]. discriminate.
Qed.

Lemma X3_stdout_at_most_target_line_witness :
  stdout_lines
    [Executed "/usr/bin/ld.lld" ["/usr/bin/ld.lld"; "-v"];
     WithColor_error ("Couldn't execute program '/usr/bin/ld.lld'" ++ nl)]
  = [].
Proof.
  exact (proj2 (proj2 (@X3_stdout_at_most_target_line LLVM.broken_host
                         "ld.lld" ["-v"] _ eq_refl))
           "/usr/bin/ld.lld" ["/usr/bin/ld.lld"; "-v"] eq_refl eq_refl).
Defined.

(** X4: when [ld.lld] is missing the arguments are never looked at: every
    argument vector, the empty one included, gives the same run, which
    executes nothing, prints one diagnostic and exits with 1. *)
Theorem X4_missing_linker_ignores_arguments {P : Platform}
    (message : string) (argv : list string) :
  findProgramByName LD_LLD_PROGNAME = Err message ->
  main argv = main [] /\
  exists r,
    main argv = Some r /\
    exit_code r = 1%Z /\
    executions (trace r) = [] /\
    stdout_lines (trace r) = [] /\
    length (stderr_lines (trace r)) = 1.
Proof.
  intros E. rewrite (main_not_found argv message E).
  rewrite (main_not_found [] message E).
  split; [reflexivity|]. eexists. split; [reflexivity|]. repeat split.
Qed.

Lemma X4_missing_linker_ignores_arguments_witness :
  @main LLVM.bare_host ["sparc--netbsd-ld"; "-flavor"; "gnu"; "-v"] =
  @main LLVM.bare_host [].
Proof.
  exact (proj1 (@X4_missing_linker_ignores_arguments LLVM.bare_host
                  "No such file or directory"
                  ["sparc--netbsd-ld"; "-flavor"; "gnu"; "-v"] eq_refl)).
Defined.

(** X5: the NetBSD customization pushes four or five flags, never more:
    the image base and a library path below [/usr/lib] exclude each
    other. *)
Theorem X5_netbsd_flag_count (t : Triple.T) :
  Triple.getOS t = Triple.NetBSD ->
  (length (customization_flags t) = 4 \/
   length (customization_flags t) = 5) /\
  (In "--image-base=0x200100000" (customization_flags t) ->
   forall f, In f (customization_flags t) -> prefix "-L=/usr/lib/" f = false).
Proof.
  intros E. rewrite (customization_flags_NetBSD t E).
  unfold loader_workarounds.
  assert (Hflags : forall l : list string,
             (length l = 4 \/ length l = 5) ->
             (In "--image-base=0x200100000" l ->
              Forall (fun f => prefix "-L=/usr/lib/" f = false) l) ->
             (length l = 4 \/ length l = 5) /\
             (In "--image-base=0x200100000" l ->
              forall f, In f l -> prefix "-L=/usr/lib/" f = false)).
  { intros l Hlen Hall. split; [exact Hlen|].
    intros Hin. apply Forall_forall. exact (Hall Hin). }
  apply Hflags.
  - destruct (Triple.getArch t); simpl; auto;
      destruct (Triple.getEnvironment t); simpl; auto.
  - destruct (Triple.getArch t); simpl;
      first
        [ solve [intros _; repeat constructor]
        | solve [intros Hin;
                 repeat (destruct Hin as [Hin|Hin]; try discriminate Hin);
                 contradiction]
        | destruct (Triple.getEnvironment t); simpl; intros Hin;
          repeat (destruct Hin as [Hin|Hin]; try discriminate Hin);
          contradiction ].
Qed.

Lemma X5_netbsd_flag_count_witness :
  length (customization_flags (LLVM.Triple "aarch64_be--netbsd")) = 4 \/
  length (customization_flags (LLVM.Triple "aarch64_be--netbsd")) = 5.
Proof.
  exact (proj1 (X5_netbsd_flag_count (LLVM.Triple "aarch64_be--netbsd")
                  eq_refl)).
Defined.

(** X6: for every triple, the customization never pushes the same flag
    twice. *)
Theorem X6_customization_flags_NoDup (t : Triple.T) :
  NoDup (customization_flags t).
Proof.
  destruct (Triple.OSType_eq_dec (Triple.getOS t) Triple.NetBSD) as [E|E].
  - rewrite (customization_flags_NetBSD t E). unfold loader_workarounds.
    destruct (Triple.getArch t); simpl;
      first
        [ solve [repeat (constructor;
                         [simpl; intros Hin;
                          repeat (destruct Hin as [Hin|Hin];
                                  try discriminate Hin);
                          contradiction|]);
                 constructor]
        | destruct (Triple.getEnvironment t); simpl;
          repeat (constructor;
                  [simpl; intros Hin;
                   repeat (destruct Hin as [Hin|Hin]; try discriminate Hin);
                   contradiction|]);
          constructor ].
  - rewrite (customization_flags_other t E). constructor.
Qed.

(** X7: flags are produced for NetBSD and for nothing else: the
    customization leaves the argument vector as it is exactly when the
    operating system of the triple is not NetBSD. *)
Theorem X7_flags_empty_iff_not_NetBSD (t : Triple.T) (v : list string) :
  (customization_flags t = [] <-> Triple.getOS t <> Triple.NetBSD) /\
  (prependTargetCustomization t v = v <-> Triple.getOS t <> Triple.NetBSD).
Proof.
  assert (H : customization_flags t = [] <->
              Triple.getOS t <> Triple.NetBSD).
  { split.
    - intros Hnil E. rewrite (customization_flags_NetBSD t E) in Hnil.
      discriminate.
    - apply customization_flags_other. }
  split; [exact H|].
  rewrite prependTargetCustomization_app, <- H. split.
  - intros Hv. rewrite <- (app_nil_r v) in Hv at 2.
    now apply app_inv_head in Hv.
  - intros ->. apply app_nil_r.
Qed.

(** X8: the environment of a triple matters for 32-bit ARM only.  Two
    triples with the same operating system and the same architecture,
    other than arm, armeb, thumb and thumbeb, are customized alike,
    whatever their environments and their spelling. *)
Theorem X8_environment_only_for_arm32 (t1 t2 : Triple.T)
    (v : list string) :
  Triple.getOS t1 = Triple.getOS t2 ->
  Triple.getArch t1 = Triple.getArch t2 ->
  is_arm32 (Triple.getArch t1) = false ->
  prependTargetCustomization t1 v = prependTargetCustomization t2 v.
Proof.
  intros Hos Harch Harm.
  unfold prependTargetCustomization, Triple.isOSNetBSD. rewrite <- Hos.
  destruct (Triple.getOS t1); try reflexivity.
  rewrite !prependNetBSDCustomization_shape. rewrite <- Harch.
  unfold arch_library_path. now rewrite Harm.
Qed.

Lemma X8_environment_only_for_arm32_witness :
  prependTargetCustomization (LLVM.Triple "i386--netbsd-gnu")
    ["/usr/bin/ld.lld"] =
  prependTargetCustomization (LLVM.Triple "i686-unknown-netbsd9.0")
    ["/usr/bin/ld.lld"].
Proof.
  exact (X8_environment_only_for_arm32 (LLVM.Triple "i386--netbsd-gnu")
           (LLVM.Triple "i686-unknown-netbsd9.0") ["/usr/bin/ld.lld"]
           eq_refl eq_refl eq_refl).
Defined.

(** X9: the [-flavor] trimming keeps [argc] equal to the number of
    arguments left, so the forwarding loop stays inside [argv].  It either
    leaves [argv] alone or skips its first two entries, the first of which
    is then [-flavor]; and it prints something only if there are exactly
    two arguments. *)
Theorem X9_trimFlavor_keeps_argc (argv : list string) :
  let '(diag, argc', argv') := trimFlavor (Z.of_nat (length argv)) argv in
  argc' = Z.of_nat (length argv') /\
  (argv' = argv \/
   (argv' = skipn 2 argv /\ 2 <= length argv /\ nth 0 argv "" = "-flavor"))
  /\ (diag = [] \/ length argv = 2).
Proof.
  rewrite trimFlavor_strip. split; [reflexivity|].
  destruct argv as [|a [|b rest]]; simpl; auto.
  destruct (a =? "-flavor") eqn:Ea.
  - apply String.eqb_eq in Ea. subst a. split.
    + right. repeat split. lia.
    + destruct rest; simpl; auto.
  - split; [now left|]. destruct rest; auto.
Qed.

(** X10: the forwarding loop only appends: started at index [i] for [n]
    rounds it leaves what the vector held and adds [argv[i]],
    [argv[i+1]], ... in this order. *)
Theorem X10_appendOriginal_appends (n i : nat) (argv Argv : list string) :
  appendOriginal n i argv Argv =
  Argv ++ map (fun k => nth k argv "") (seq i n).
Proof.
  revert i Argv. induction n as [|n IH]; intros i Argv; simpl.
  - now rewrite app_nil_r.
  - rewrite IH. unfold push_back. now rewrite <- app_assoc.
Qed.
